(** * Verification of the Stripe payment backend ([server.js])

    A shallow embedding of the request handlers of [server.js]: the amount
    and currency validators, the [POST /create-payment-intent] handler, the
    [POST /webhook] handler, the CORS origin callback and the JSON body
    parser in front of the routes, followed by the theorems that settle the
    specification's claims against them. *)

From Stdlib Require Import Ascii String QArith Qcanon.
From stdpp Require Import base option list strings gmap fin_maps pretty.

Set Warnings "-register-all".

Local Open Scope Z_scope.
Local Open Scope string_scope.

(** ** JavaScript values *)

(** A JS Number is modelled by its mathematical value, as ECMA-262 does when
    it defines [Number.isInteger] and the relational operators: NaN, the two
    infinities, or a finite value.  Finite values are canonical rationals,
    which include every finite double; [-0] and [+0] are both [Finite 0]
    (nothing in [server.js] tells them apart). *)
Inductive number :=
  | NaN
  | Infinity (negative : bool)
  | Finite (q : Qc).

Definition of_Z (z : Z) : number := Finite (Q2Qc (inject_Z z)).

(** The values [req.body] and its properties can hold: what [JSON.parse]
    produces, and [undefined] for an absent property.  An object is the
    finite map of its own properties.  ([req.body] is never a [Buffer]:
    [express.json()] of line 20 runs before [express.raw] of line 59, see
    [express_json] below.) *)
Inductive value :=
  | VUndefined
  | VNull
  | VBool (b : bool)
  | VNum (n : number)
  | VStr (s : string)
  | VArr (elems : list value)
  | VObj (props : gmap string value).

(** Strings are Rocq strings, one character per UTF-16 code unit, which
    covers the texts whose code units are below 256. *)

(** ** Exceptions and effects *)

(** A thrown [Error] object.  The message texts of the engine's own
    [TypeError]s are V8's; nothing below depends on them. *)
Record JsError := { err_name : string; err_message : string }.

Definition TypeError (msg : string) : JsError :=
  {| err_name := "TypeError"; err_message := msg |}.

Definition SyntaxError (msg : string) : JsError :=
  {| err_name := "SyntaxError"; err_message := msg |}.

(** [new Error(msg)] *)
Definition new_Error (msg : string) : JsError :=
  {| err_name := "Error"; err_message := msg |}.

(** The result of evaluating an expression: a value or a thrown exception. *)
Inductive completion (A : Type) :=
  | Normal (a : A)
  | Throw (e : JsError).
Arguments Normal {A} a.
Arguments Throw {A} e.

#[global] Instance completion_ret : MRet completion := @Normal.
#[global] Instance completion_bind : MBind completion := λ A B f c,
  match c with Normal a => f a | Throw e => Throw e end.
#[global] Instance completion_fmap : FMap completion := λ A B f c,
  match c with Normal a => Normal (f a) | Throw e => Throw e end.

(** ** Primitive operations of the language *)

Definition is_nullish (v : value) : bool :=
  match v with VUndefined | VNull => true | _ => false end.

(** [ToBoolean], the test behind [||], [!] and [?:]. *)
Definition ToBoolean (v : value) : bool :=
  match v with
  | VUndefined | VNull => false
  | VBool b => b
  | VNum NaN => false
  | VNum (Infinity _) => true
  | VNum (Finite q) => negb (bool_decide (Qnum (this q) = 0))
  | VStr s => negb (bool_decide (s = ""))
  | VArr _ | VObj _ => true
  end.

(** [v.k] for the property names read in [server.js] ([amountInCents],
    [currency], [metadata], [type], [data], [object], [last_payment_error],
    [message]): none of them is an array index, [length] or a property of a
    built-in prototype, so only own properties of plain objects can hold
    them.  Reading a property of [undefined] or [null] throws. *)
Definition Get (v : value) (k : string) : completion value :=
  match v with
  | VUndefined =>
      Throw (TypeError ("Cannot read properties of undefined (reading '" +:+ k +:+ "')"))
  | VNull =>
      Throw (TypeError ("Cannot read properties of null (reading '" +:+ k +:+ "')"))
  | VObj props => Normal (default VUndefined (props !! k))
  | _ => Normal VUndefined
  end.

(** [a === "literal"] *)
Definition strict_eq_str (v : value) (lit : string) : bool :=
  match v with VStr s => bool_decide (s = lit) | _ => false end.

(** [String.prototype.toLowerCase] on code units below 256: the Latin
    capital letters [A]-[Z] and [U+00C0]-[U+00DE] (except the multiplication
    sign [U+00D7]) move up by 32. *)
Definition lower_char (c : ascii) : ascii :=
  let n := N_of_ascii c in
  if ((65 <=? n) && (n <=? 90))%N then ascii_of_N (n + 32)
  else if ((192 <=? n) && (n <=? 222) && negb (n =? 215))%N then ascii_of_N (n + 32)
  else c.

Fixpoint toLowerCase (s : string) : string :=
  match s with
  | EmptyString => EmptyString
  | String c r => String (lower_char c) (toLowerCase r)
  end.

(** [Array.prototype.join] with the separator [","], over the strings of the
    elements. *)
Fixpoint join_comma (parts : list string) : string :=
  match parts with
  | [] => ""
  | [p] => p
  | p :: rest => p +:+ "," +:+ join_comma rest
  end.

Section ToString.
(** [Number::toString] for the finite numbers that are not integers below
    2^53 in magnitude (fractions, and the large numbers whose shortest
    round-trip digits need not be their exact expansion): its digits are
    left to the engine. *)
Variable Number_toString_other : Qc → string.

Definition Number_toString (n : number) : string :=
  match n with
  | NaN => "NaN"
  | Infinity negative => if negative then "-Infinity" else "Infinity"
  | Finite q =>
      if bool_decide (Qden (this q) = 1%positive)
         && (Z.abs (Qnum (this q)) <? 2 ^ 53)%Z
      then pretty (Qnum (this q))
      else Number_toString_other q
  end.

(** [String(v)], that is [ToString(v)].  An array is joined with commas,
    [undefined] and [null] elements giving the empty string.  A plain
    object answers ["[object Object]"] through [Object.prototype.toString],
    unless it has an own property [toString]: a JSON value is not callable,
    [Object.prototype.valueOf] returns the object itself, and
    [OrdinaryToPrimitive] throws a [TypeError]. *)
Fixpoint ToString (v : value) : completion string :=
  match v with
  | VUndefined => Normal "undefined"
  | VNull => Normal "null"
  | VBool b => Normal (if b then "true" else "false")
  | VNum n => Normal (Number_toString n)
  | VStr s => Normal s
  | VArr elems =>
      join_comma <$>
        (fix elements (l : list value) : completion (list string) :=
           match l with
           | [] => Normal []
           | e :: r =>
               s ← (if is_nullish e then Normal "" else ToString e);
               k ← elements r;
               Normal (s :: k)
           end) elems
  | VObj props =>
      if bool_decide (is_Some (props !! "toString"))
      then Throw (TypeError "Cannot convert object to primitive value")
      else Normal "[object Object]"
  end.
End ToString.

(** ** Amount validation (server.js, lines 23-25) *)

(** [Number.isInteger(v)]: [v] is a Number, finite, and equal to its own
    truncation.  For a canonical rational that is a denominator of 1. *)
Definition Number_isInteger (v : value) : bool :=
  match v with
  | VNum (Finite q) => bool_decide (Qden (this q) = 1%positive)
  | _ => false
  end.

(** [v > n] and [v <= n], for the places of the source where the left operand
    has already passed [Number.isInteger] and the right one is a literal; a
    comparison with NaN is false. *)
Definition num_gt (a : number) (n : Z) : bool :=
  match a with
  | NaN => false
  | Infinity negative => negb negative
  | Finite q => match (this q ?= inject_Z n)%Q with Gt => true | _ => false end
  end.

Definition num_le (a : number) (n : Z) : bool :=
  match a with
  | NaN => false
  | Infinity negative => negative
  | Finite q => match (this q ?= inject_Z n)%Q with Gt => false | _ => true end
  end.

Definition value_gt (v : value) (n : Z) : bool :=
  match v with VNum a => num_gt a n | _ => false end.

Definition value_le (v : value) (n : Z) : bool :=
  match v with VNum a => num_le a n | _ => false end.

(** [return Number.isInteger(v) && v > 0 && v <= 5_000_00_00; // up to $500k]
    The literal [5_000_00_00] is 50000000: fifty million cents. *)
Definition isValidAmount (v : value) : bool :=
  Number_isInteger v && value_gt v 0 && value_le v 50000000.

(** ** Currency allow-set (server.js, line 26) *)

Definition allowedCurrencies : gset string :=
  {[ "usd"; "cad"; "eur"; "gbp"; "aud" ]}.

(** [set.has(x)] *)
Definition Set_has (set : gset string) (x : string) : bool :=
  bool_decide (x ∈ set).

(** ** Effects of a handler *)

(** What [console.error] receives after its label: the caught exception
    (line 52) or a value (line 69). *)
Inductive logged :=
  | LogError (e : JsError)
  | LogValue (v : value).

(** The argument of [stripe.paymentIntents.create] (lines 41-48). *)
Record PaymentIntentCreateParams := {
  amount : value;
  currency : string;
  automatic_payment_methods_enabled : bool;
  metadata : gmap string string
}.

(** The intent the processor answers with; the handler reads its
    [client_secret] only. *)
Record PaymentIntent := { client_secret : value }.

(** The observable effects, in the order they happen.  [SwitchOn] is a ghost
    effect: it records that control reached the [switch] of line 73, and the
    event type it dispatches on. *)
Inductive effect :=
  | ConsoleError (label : string) (arg : logged)
  | ConsoleWarn (label : string) (arg : value)
  | PaymentIntentsCreate (params : PaymentIntentCreateParams)
  | ConstructEvent (payload : value) (header : option string) (secret : string)
  | SwitchOn (type : value).

(** A computation with effects: the trace of its effects and its completion. *)
#[projections(primitive=yes)]
Record M (A : Type) := Run { trace : list effect; result : completion A }.
Arguments Run {A} trace result.
Arguments trace {A} m.
Arguments result {A} m.

#[global] Instance M_ret : MRet M := λ A a, Run [] (Normal a).
#[global] Instance M_bind : MBind M := λ A B f m,
  match result m with
  | Normal a => Run (trace m ++ trace (f a)) (result (f a))
  | Throw e => Run (trace m) (Throw e)
  end.

#[global] Instance M_fmap : FMap M := λ A B f m, Run (trace m) (f <$> result m).

(** An effect-free expression. *)
Definition pure {A} (c : completion A) : M A := Run [] c.

(** A call whose only effect is [e] and whose outcome is [r]. *)
Definition call {A} (e : effect) (r : completion A) : M A := Run [e] r.

(** [try { m } catch (err) { handler err }] *)
Definition try_catch {A} (m : M A) (handler : JsError → M A) : M A :=
  match result m with
  | Normal _ => m
  | Throw err => Run (trace m ++ trace (handler err)) (result (handler err))
  end.

(** The processor calls of a trace, in order. *)
Definition processor_calls (t : list effect) : list PaymentIntentCreateParams :=
  omap (λ e, match e with PaymentIntentsCreate p => Some p | _ => None end) t.

(** ** Responses *)

Inductive res_body :=
  | Json (v : value)
  | Text (s : string).

Record response := { status : Z; body : res_body }.

(** [res.json(v)], [res.status(code).json(v)], [res.send(s)] and
    [res.status(code).send(s)]; the status of a fresh response is 200. *)
Definition res_json (v : value) : response := {| status := 200; body := Json v |}.
Definition res_status_json (code : Z) (v : value) : response :=
  {| status := code; body := Json v |}.
Definition res_send (s : string) : response := {| status := 200; body := Text s |}.
Definition res_status_send (code : Z) (s : string) : response :=
  {| status := code; body := Text s |}.

(** ** What the handlers take from outside [server.js] *)

Record Externals := {
  (** the engine's digits of a number that is not a small integer *)
  Number_toString_other : Qc → string;
  (** [JSON.parse] on a text *)
  JSON_parse_text : string → completion value;
  (** [stripe.paymentIntents.create], awaited *)
  paymentIntents_create : PaymentIntentCreateParams → completion PaymentIntent;
  (** [stripe.webhooks.constructEvent(payload, header, secret)] *)
  webhooks_constructEvent : value → option string → string → completion value;
  (** [req.body] of a request the body parsers skip: [{}] under
      body-parser 1 (Express 4), [undefined] under body-parser 2 (Express 5) *)
  unparsed_body : value
}.

(** [Object.entries(v)]: the own enumerable string-keyed properties.  The
    indices of an array and of a string's characters are their decimal
    spellings; a number or a boolean has none. *)
Definition Object_entries (v : value) : completion (list (string * value)) :=
  match v with
  | VUndefined | VNull =>
      Throw (TypeError "Cannot convert undefined or null to object")
  | VObj props => Normal (map_to_list props)
  | VArr elems => Normal (imap (λ i e, (pretty i, e)) elems)
  | VStr s =>
      Normal (imap (λ i c, (pretty i, VStr (String c ""))) (list_ascii_of_string s))
  | VBool _ | VNum _ => Normal []
  end.

(** [Object.fromEntries(l)]: the properties are defined in order, a later
    entry replacing an earlier one with the same key. *)
Definition Object_fromEntries (l : list (string * string)) : gmap string string :=
  foldl (λ obj kv, <[kv.1 := kv.2]> obj) ∅ l.

Section Handlers.
Variable ext : Externals.
(** [process.env] *)
Variable process_env : gmap string string.

(** [String(v)] *)
Definition String_ (v : value) : completion string :=
  ToString (Number_toString_other ext) v.

(** [JSON.parse(v)]: the argument is converted to a string first. *)
Definition JSON_parse (v : value) : completion value :=
  text ← String_ v; JSON_parse_text ext text.

(** *** POST /create-payment-intent (server.js, lines 30-55) *)

(** [const { amountInCents, currency = 'usd', metadata = {} } = req.body;]
    A default replaces an [undefined] property only. *)
Definition destructure_body (req_body : value)
  : completion (value * value * value) :=
  if is_nullish req_body
  then Throw (TypeError
    ("Cannot destructure property 'amountInCents' of 'req.body' as it is "
     +:+ (match req_body with VNull => "null" | _ => "undefined" end) +:+ "."))
  else
    amountInCents ← Get req_body "amountInCents";
    currency ← Get req_body "currency";
    metadata ← Get req_body "metadata";
    Normal (amountInCents,
            match currency with VUndefined => VStr "usd" | _ => currency end,
            match metadata with VUndefined => VObj ∅ | _ => metadata end).

(** [allowedCurrencies.has(String(currency).toLowerCase())] (line 37) *)
Definition currency_allowed (currency : value) : completion bool :=
  s ← String_ currency; Normal (Set_has allowedCurrencies (toLowerCase s)).

(** [Object.fromEntries(Object.entries(metadata || {}).map(([k, v]) =>
    [k, String(v)]))] (lines 45-47) *)
Definition coerce_metadata (metadata : value) : completion (gmap string string) :=
  entries ← Object_entries (if ToBoolean metadata then metadata else VObj ∅);
  mapped ← mapM (λ kv, s ← String_ kv.2; Normal (kv.1, s)) entries;
  Normal (Object_fromEntries mapped).

Definition invalid_amount : response :=
  res_status_json 400 (VObj {[ "error" := VStr "Invalid amount" ]}).
Definition unsupported_currency : response :=
  res_status_json 400 (VObj {[ "error" := VStr "Unsupported currency" ]}).
Definition server_error : response :=
  res_status_json 500 (VObj {[ "error" := VStr "Server error" ]}).

(** The body of the [try] block (lines 32-50). *)
Definition create_payment_intent_try (req_body : value) : M response :=
  '(amountInCents, currency, metadata) ← pure (destructure_body req_body);
  if negb (isValidAmount amountInCents) then mret invalid_amount
  else
    ok ← pure (currency_allowed currency);
    if negb ok then mret unsupported_currency
    else
      cur ← pure (String_ currency);
      md ← pure (coerce_metadata metadata);
      let params := {| amount := amountInCents;
                       currency := toLowerCase cur;
                       automatic_payment_methods_enabled := true;
                       metadata := md |} in
      intent ← call (PaymentIntentsCreate params) (paymentIntents_create ext params);
      mret (res_json (VObj {[ "clientSecret" := client_secret intent ]})).

Definition create_payment_intent_handler (req_body : value) : M response :=
  try_catch (create_payment_intent_try req_body)
    (λ err, call (ConsoleError "create-payment-intent error:" (LogError err)) (Normal tt);;
            mret server_error).

(** *** POST /webhook (server.js, lines 59-89) *)

(** [const endpointSecret = process.env.STRIPE_WEBHOOK_SECRET;] *)
Definition endpointSecret : option string := process_env !! "STRIPE_WEBHOOK_SECRET".

(** The [try] block (lines 65-67): an unset or empty secret is falsy. *)
Definition obtain_event (sig : option string) (req_body : value) : M value :=
  match endpointSecret with
  | Some secret =>
      if bool_decide (secret = "") then pure (JSON_parse req_body)
      else call (ConstructEvent req_body sig secret)
                (webhooks_constructEvent ext req_body sig secret)
  | None => pure (JSON_parse req_body)
  end.

(** The [switch] statement (lines 73-86). *)
Definition dispatch (event : value) : M unit :=
  type ← pure (Get event "type");
  call (SwitchOn type) (Normal tt);;
  if strict_eq_str type "payment_intent.succeeded" then
    data ← pure (Get event "data");
    pi ← pure (Get data "object");
    mret tt
  else if strict_eq_str type "payment_intent.payment_failed" then
    data ← pure (Get event "data");
    pi ← pure (Get data "object");
    last_payment_error ← pure (Get pi "last_payment_error");
    msg ← pure (if is_nullish last_payment_error then Normal VUndefined
                else Get last_payment_error "message");
    call (ConsoleWarn "Payment failed:" msg) (Normal tt)
  else mret tt.

Definition received : response := res_json (VObj {[ "received" := VBool true ]}).

Definition webhook_handler (sig : option string) (req_body : value) : M response :=
  ev ← try_catch (inl <$> obtain_event sig req_body)
        (λ err,
           call (ConsoleError "Webhook signature verification failed."
                   (LogValue (VStr (err_message err)))) (Normal tt);;
           mret (inr (res_status_send 400 ("Webhook Error: " +:+ err_message err))));
  match ev with
  | inr early => mret early
  | inl event => dispatch event;; mret received
  end.

(** *** CORS gate (server.js, lines 12-18) *)

(** [s.split(',')] *)
Fixpoint split_comma (s : string) : list string :=
  match s with
  | EmptyString => [""]
  | String c r =>
      if bool_decide (c = ","%char) then "" :: split_comma r
      else match split_comma r with
           | h :: t => String c h :: t
           | [] => [String c ""]
           end
  end.

(** [(process.env.ALLOWED_ORIGINS || '').split(',').filter(Boolean)] *)
Definition allowed : list string :=
  filter (λ s, s ≠ "") (split_comma (default "" (process_env !! "ALLOWED_ORIGINS"))).

(** [list.includes(x)], for a list of strings and [x] a string or
    [undefined]. *)
Definition includes (l : list string) (x : option string) : bool :=
  match x with
  | Some o => bool_decide (o ∈ l)
  | None => false
  end.

(** The [origin] callback: [Normal true] is [cb(null, true)], [Throw err] is
    [cb(err)].  [origin] is [req.headers.origin], absent or a string. *)
Definition cors_origin (origin : option string) : completion bool :=
  if negb (ToBoolean (from_option VStr VUndefined origin))
     || bool_decide (length allowed = 0%nat)
     || includes allowed origin
  then Normal true
  else Throw (new_Error "Not allowed by CORS").

(** *** The body parsers (server.js, lines 20 and 59) *)

(** What a request carries, as [express.json()] sees it: nothing for it to
    read (no body, or a content type other than [application/json]), a body
    of type [application/json] read as the text [text], or a body the parser
    refuses before parsing (charset, encoding or size), with its error. *)
Inductive entity :=
  | NoJsonBody
  | JsonBody (text : string)
  | UnreadableBody (err : JsError).

(** The first character of a text after the white space JSON allows. *)
Fixpoint first_char (text : string) : option ascii :=
  match text with
  | EmptyString => None
  | String c r =>
      if bool_decide (c = " "%char) || bool_decide (c = ascii_of_N 9)
         || bool_decide (c = ascii_of_N 10) || bool_decide (c = ascii_of_N 13)
      then first_char r
      else Some c
  end.

(** [app.use(express.json())]: [req.body] after the parser, or the error it
    passes to [next] (status 400).  As body-parser implements it with its
    default options: an empty text gives [{}]; in strict mode a text that
    does not start with a brace or a bracket is a syntax error; the rest is
    [JSON.parse].  A request the parser skips keeps its [req.body]. *)
Definition express_json (e : entity) : completion value :=
  match e with
  | NoJsonBody => Normal (unparsed_body ext)
  | UnreadableBody err => Throw err
  | JsonBody text =>
      if bool_decide (text = "") then Normal (VObj ∅)
      else
        match first_char text with
        | Some c =>
            if bool_decide (c = "{"%char) || bool_decide (c = "["%char)
            then JSON_parse_text ext text
            else Throw (SyntaxError "Unexpected token in JSON")
        | None => Throw (SyntaxError "Unexpected end of JSON input")
        end
  end.

(** *** The application: the CORS gate, the JSON parser, the route *)

Inductive route := CreatePaymentIntent | Webhook | Health | NoRoute.

(** A request: the route Express matches, the [Origin] and
    [stripe-signature] headers, and its body. *)
Record request := {
  req_route : route;
  req_origin : option string;
  req_signature : option string;
  req_entity : entity
}.

(** The route handlers (lines 30, 59 and 92), on [req.body] as
    [express.json()] left it.  [express.raw({type: 'application/json'})] on
    the webhook route changes nothing: it skips a request whose body was
    already parsed, and it skips what [express.json()] skipped.  [None]: no
    handler of [server.js] answers. *)
Definition handlers (req : request) (req_body : value) : M (option response) :=
  match req_route req with
  | CreatePaymentIntent => Some <$> create_payment_intent_handler req_body
  | Webhook => Some <$> webhook_handler (req_signature req) req_body
  | Health => mret (Some (res_send "Stripe backend OK"))
  | NoRoute => mret None
  end.

(** What follows the CORS gate: [app.use(express.json())] (line 20), whose
    error goes to Express's error handling, then the route. *)
Definition routes (req : request) : M (option response) :=
  req_body ← pure (express_json (req_entity req));
  handlers req req_body.

(** [app.use(cors({origin}))] comes first: a request the callback refuses
    goes to Express's error handling with the callback's error, the others go
    on to the routes. *)
Definition app (req : request) : M (option response) :=
  pure (cors_origin (req_origin req));; routes req.
End Handlers.

(** ** Events the [switch] can take *)

(** The own property [k] of [v], [undefined] when there is none. *)
Definition own (v : value) (k : string) : value :=
  match v with
  | VObj props => default VUndefined (props !! k)
  | _ => VUndefined
  end.

(** The shape the [switch] statement relies on: the event is neither [null]
    nor [undefined]; under the type [payment_intent.succeeded] its [data] is
    neither; under [payment_intent.payment_failed] its [data] and
    [data.object] are neither. *)
Definition dispatch_safe (event : value) : bool :=
  negb (is_nullish event) &&
  if strict_eq_str (own event "type") "payment_intent.succeeded"
  then negb (is_nullish (own event "data"))
  else if strict_eq_str (own event "type") "payment_intent.payment_failed"
  then negb (is_nullish (own event "data"))
       && negb (is_nullish (own (own event "data") "object"))
  else true.

(** The two event types the [switch] has a case for. *)
Definition handled_type (type : value) : bool :=
  strict_eq_str type "payment_intent.succeeded"
  || strict_eq_str type "payment_intent.payment_failed".

(** ** Test doubles and sample requests *)

(** The double-quote character. *)
Definition dq : string := String (ascii_of_N 34) "".

(** The JSON text of an event that has a type and nothing else:
    [{"type":"payment_intent.payment_failed"}]. *)
Definition bare_failed_event_text : string :=
  "{" +:+ dq +:+ "type" +:+ dq +:+ ":" +:+ dq +:+ "payment_intent.payment_failed"
  +:+ dq +:+ "}".

(** The JSON text of a checkout, [{"amountInCents":2500}], and its value. *)
Definition checkout_text : string :=
  "{" +:+ dq +:+ "amountInCents" +:+ dq +:+ ":2500}".

Definition body_checkout : value :=
  VObj {[ "amountInCents" := VNum (of_Z 2500) ]}.

(** [JSON.parse] on the texts of the sample requests; every other text used
    below is not JSON. *)
Definition sample_JSON_parse (text : string) : completion value :=
  if bool_decide (text = "null") then Normal VNull
  else if bool_decide (text = checkout_text) then Normal body_checkout
  else if bool_decide (text = "{}") then Normal (VObj ∅)
  else if bool_decide (text = bare_failed_event_text)
  then Normal (VObj {[ "type" := VStr "payment_intent.payment_failed" ]})
  else Throw (SyntaxError "Unexpected token in JSON").

(** A processor that creates every intent and refuses every signature. *)
Definition accepting : Externals := {|
  Number_toString_other := λ _, "";
  JSON_parse_text := sample_JSON_parse;
  paymentIntents_create := λ _, Normal {| client_secret := VStr "pi_1_secret_2" |};
  webhooks_constructEvent := λ _ _ _,
    Throw {| err_name := "StripeSignatureVerificationError";
             err_message := "No signatures found matching the expected signature for payload." |};
  unparsed_body := VObj ∅
|}.

(** A processor that declines every intent. *)
Definition declining : Externals := {|
  Number_toString_other := λ _, "";
  JSON_parse_text := sample_JSON_parse;
  paymentIntents_create := λ _,
    Throw {| err_name := "StripeCardError"; err_message := "Your card was declined." |};
  webhooks_constructEvent := webhooks_constructEvent accepting;
  unparsed_body := VObj ∅
|}.

(** A signed [payment_intent.payment_failed] event, and a processor library
    that verifies it. *)
Definition failed_event : value :=
  VObj {[ "type" := VStr "payment_intent.payment_failed";
          "data" := VObj {[ "object" :=
            VObj {[ "last_payment_error" :=
              VObj {[ "message" := VStr "Your card has insufficient funds." ]} ]} ]} ]}.

Definition verifying : Externals := {|
  Number_toString_other := λ _, "";
  JSON_parse_text := sample_JSON_parse;
  paymentIntents_create := paymentIntents_create accepting;
  webhooks_constructEvent := λ _ _ _, Normal failed_event;
  unparsed_body := VObj ∅
|}.

(** [{amountInCents: -5}] *)
Definition body_negative : value :=
  VObj {[ "amountInCents" := VNum (of_Z (-5)) ]}.

(** [{amountInCents: 1000, currency: "jpy"}] *)
Definition body_jpy : value :=
  VObj {[ "amountInCents" := VNum (of_Z 1000); "currency" := VStr "jpy" ]}.

(** [{amountInCents: -5, currency: "jpy"}] *)
Definition body_negative_jpy : value :=
  VObj {[ "amountInCents" := VNum (of_Z (-5)); "currency" := VStr "jpy" ]}.

(** [{amountInCents: 2500, currency: "USD", metadata: {orderId: 42}}] *)
Definition body_usd : value :=
  VObj {[ "amountInCents" := VNum (of_Z 2500); "currency" := VStr "USD";
          "metadata" := VObj {[ "orderId" := VNum (of_Z 42) ]} ]}.


(** [process.env] with a webhook secret, without one, and with an origin
    allow-list. *)
Definition env_secret : gmap string string :=
  {[ "STRIPE_WEBHOOK_SECRET" := "whsec_test" ]}.
Definition env_no_secret : gmap string string := ∅.
Definition env_origins : gmap string string :=
  {[ "ALLOWED_ORIGINS" := "https://shop.example,https://admin.shop.example" ]}.

(** A checkout request from an origin outside the allow-list, and one from
    inside it. *)
Definition req_foreign : request := {|
  req_route := CreatePaymentIntent;
  req_origin := Some "https://evil.example";
  req_signature := None;
  req_entity := JsonBody checkout_text
|}.

Definition req_shop : request := {|
  req_route := CreatePaymentIntent;
  req_origin := Some "https://shop.example";
  req_signature := None;
  req_entity := JsonBody checkout_text
|}.

(** The primitive values of JSON and [undefined]: everything but arrays
    and objects. *)
Definition is_primitive (v : value) : bool :=
  match v with
  | VUndefined | VNull | VBool _ | VNum _ | VStr _ => true
  | VArr _ | VObj _ => false
  end.

(** [{amountInCents: "100"}]: the amount as a string. *)
Definition body_string_amount : value :=
  VObj {[ "amountInCents" := VStr "100" ]}.

(** [{amountInCents: 2500, currency: null}] *)
Definition body_null_currency : value :=
  VObj {[ "amountInCents" := VNum (of_Z 2500); "currency" := VNull ]}.

(** The metadata [{orderId: 42, gift: true, note: null}]. *)
Definition flat_metadata : gmap string value :=
  {[ "orderId" := VNum (of_Z 42); "gift" := VBool true; "note" := VNull ]}.

(** [{amountInCents: 2500, metadata: {orderId: 42, gift: true, note: null}}] *)
Definition body_flat_metadata : value :=
  VObj {[ "amountInCents" := VNum (of_Z 2500); "metadata" := VObj flat_metadata ]}.

(** A signed [payment_intent.succeeded] event. *)
Definition succeeded_event : value :=
  VObj {[ "type" := VStr "payment_intent.succeeded";
          "data" := VObj {[ "object" := VObj {[ "id" := VStr "pi_1" ]} ]} ]}.

(** A processor library that verifies the succeeded event. *)
Definition confirming : Externals := {|
  Number_toString_other := λ _, "";
  JSON_parse_text := sample_JSON_parse;
  paymentIntents_create := paymentIntents_create accepting;
  webhooks_constructEvent := λ _ _ _, Normal succeeded_event;
  unparsed_body := VObj ∅
|}.


(** A webhook delivery whose body is not JSON, sent as [application/json]. *)
Definition req_malformed_webhook : request := {|
  req_route := Webhook;
  req_origin := None;
  req_signature := None;
  req_entity := JsonBody "{oops"
|}.

(** What [express.json()] leaves in [req.body] for a JSON delivery. *)
Definition parsed_delivery : value := VObj {[ "id" := VStr "evt_1" ]}.

(** [{amountInCents: 1000, currency: {toString: 1}}] *)
Definition body_unprintable_currency : value :=
  VObj {[ "amountInCents" := VNum (of_Z 1000);
          "currency" := VObj {[ "toString" := VNum (of_Z 1) ]} ]}.

(** ** Theorems *)

Lemma Finite_den_1 (q : Qc) :
  Qden (this q) = 1%positive → q = Q2Qc (inject_Z (Qnum (this q))).
Proof.
  intros Hden. apply Qc_is_canon. simpl.
  rewrite Qred_correct. destruct q as [[n d] Hc]; simpl in *. by subst d.
Qed.

Lemma Q2Qc_inject_Z_this (z : Z) : this (Q2Qc (inject_Z z)) = inject_Z z.
Proof. simpl. unfold inject_Z. by rewrite Qred_identity; [|simpl; rewrite Z.gcd_1_r]. Qed.

(** C1 as stated fails: the ceiling of the code is [5_000_00_00], that is
    50,000,000, not 500,000,000.  The integers 50,000,001 and 500,000,000
    are within the claim's bounds and are rejected. *)
Lemma ceiling_counterexample :
  isValidAmount (VNum (of_Z 50000001)) = false ∧
  isValidAmount (VNum (of_Z 500000000)) = false ∧
  0 < 50000001 ≤ 500000000 ∧ 0 < 500000000 ≤ 500000000.
Proof. repeat split; reflexivity || lia. Qed.

(** C1, amended.  For every value [v], [isValidAmount v] is true if and only
    if [v] is a Number whose value is an integer [z] with [0 < z <= 50000000]
    (fifty million cents, $500,000); every other value (not a Number, NaN,
    infinite, fractional, zero, negative or above the ceiling) gives false. *)
Theorem isValidAmount_spec (v : value) :
  isValidAmount v = true ↔ ∃ z : Z, v = VNum (of_Z z) ∧ 0 < z ≤ 50000000.
Proof.
  unfold isValidAmount. rewrite !andb_true_iff. split.
  - intros [[Hint Hgt] Hle].
    destruct v as [| | |[| |q]| | |]; simpl in *; try discriminate.
    apply bool_decide_eq_true in Hint.
    exists (Qnum (this q)). split.
    + unfold of_Z. by rewrite <- Finite_den_1.
    + destruct q as [[n d] Hc]; simpl in *. subst d.
      unfold Qcompare in *; simpl in *. rewrite !Z.mul_1_r in *.
      destruct (Z.compare_spec n 0), (Z.compare_spec n 50000000);
        try discriminate; lia.
  - intros (z & -> & Hz).
    unfold of_Z, Number_isInteger, value_gt, value_le, num_gt, num_le.
    rewrite Q2Qc_inject_Z_this. unfold Qcompare; simpl. rewrite !Z.mul_1_r.
    destruct (Z.compare_spec z 0), (Z.compare_spec z 50000000);
      repeat split; try lia; done.
Qed.

(** ** Currency validation *)

Lemma allowedCurrencies_elem (s : string) :
  s ∈ allowedCurrencies ↔ s ∈ ["usd"; "cad"; "eur"; "gbp"; "aud"].
Proof.
  unfold allowedCurrencies.
  rewrite !elem_of_union, !elem_of_singleton, !elem_of_cons, elem_of_nil.
  tauto.
Qed.

(** C2. For every string [c], the currency check of the payment-intent
    handler (line 37) evaluates without throwing, and accepts [c] if and only
    if the lower-cased [c] is one of usd, cad, eur, gbp, aud: a request with
    a valid amount and the currency [c] is answered "Unsupported currency"
    exactly when it is not. *)
Theorem currency_allowed_spec (ext : Externals) (c : string) :
  (∃ b, currency_allowed ext (VStr c) = Normal b) ∧
  (currency_allowed ext (VStr c) = Normal true ↔
   toLowerCase c ∈ ["usd"; "cad"; "eur"; "gbp"; "aud"]) ∧
  (∀ body a m,
     destructure_body body = Normal (a, VStr c, m) →
     isValidAmount a = true →
     (result (create_payment_intent_handler ext body) =
        Normal {| status := 400;
                  body := Json (VObj {[ "error" := VStr "Unsupported currency" ]}) |}
      ↔ toLowerCase c ∉ ["usd"; "cad"; "eur"; "gbp"; "aud"])).
Proof.
  unfold currency_allowed, String_; simpl. split; [by eexists|].
  rewrite <- allowedCurrencies_elem. unfold Set_has. split.
  - split.
    + by intros [= H%bool_decide_eq_true].
    + intros H. f_equal. by apply bool_decide_eq_true.
  - intros body a m Hd Ha. rewrite <- allowedCurrencies_elem.
    unfold create_payment_intent_handler, create_payment_intent_try, try_catch.
    rewrite Hd. simpl. rewrite Ha. simpl.
    unfold currency_allowed, String_, Set_has; simpl.
    case_bool_decide as Hin; simpl; [|by split].
    split; [|done]. intros Hr. exfalso.
    destruct (coerce_metadata ext m) as [md|e]; simpl in Hr; [|done].
    destruct (paymentIntents_create ext _); simpl in Hr; done.
Qed.

Lemma currency_allowed_spec_witness :
  result (create_payment_intent_handler accepting body_jpy) =
    Normal {| status := 400;
              body := Json (VObj {[ "error" := VStr "Unsupported currency" ]}) |} ∧
  result (create_payment_intent_handler accepting body_usd) ≠
    Normal {| status := 400;
              body := Json (VObj {[ "error" := VStr "Unsupported currency" ]}) |}.
Proof.
  split.
  - destruct (currency_allowed_spec accepting "jpy") as (_ & _ & H).
    apply (H body_jpy (VNum (of_Z 1000)) (VObj ∅) eq_refl eq_refl).
    apply (bool_decide_unpack _). vm_compute. exact I.
  - destruct (currency_allowed_spec accepting "USD") as (_ & _ & H).
    intros Hr.
    apply (H body_usd (VNum (of_Z 2500)) (VObj {[ "orderId" := VNum (of_Z 42) ]})
             eq_refl eq_refl) in Hr.
    apply Hr. apply (bool_decide_unpack _). vm_compute. exact I.
Defined.

(** ** The payment-intent handler *)

(** C3 as stated fails: the amount of this body passes its check and the
    currency [{toString: 1}] does not pass the currency check, on which
    [String] throws; the response is 500 "Server error", not 400
    "Unsupported currency". *)
Lemma unprintable_currency_counterexample :
  destructure_body body_unprintable_currency =
    Normal (VNum (of_Z 1000), VObj {[ "toString" := VNum (of_Z 1) ]}, VObj ∅) ∧
  isValidAmount (VNum (of_Z 1000)) = true ∧
  currency_allowed accepting (VObj {[ "toString" := VNum (of_Z 1) ]}) =
    Throw (TypeError "Cannot convert object to primitive value") ∧
  create_payment_intent_handler accepting body_unprintable_currency =
    Run [ConsoleError "create-payment-intent error:"
           (LogError (TypeError "Cannot convert object to primitive value"))]
        (Normal {| status := 500;
                   body := Json (VObj {[ "error" := VStr "Server error" ]}) |}).
Proof. repeat split; reflexivity. Qed.

(** C3, amended.  For every request whose body destructures: if the amount
    check fails the response is 400 with the message "Invalid amount"; if it
    passes and the currency check evaluates to false the response is 400 with
    the message "Unsupported currency", both with no effect at all; if it
    passes and the currency check throws ([String] cannot convert the
    currency) the exception is logged and the response is 500 "Server
    error".  In all three cases the processor is not called and nothing is
    tried again. *)
Theorem invalid_request_rejected (ext : Externals) (body a c m : value) :
  destructure_body body = Normal (a, c, m) →
  (isValidAmount a = false →
   create_payment_intent_handler ext body =
     Run [] (Normal {| status := 400;
                       body := Json (VObj {[ "error" := VStr "Invalid amount" ]}) |})) ∧
  (isValidAmount a = true → currency_allowed ext c = Normal false →
   create_payment_intent_handler ext body =
     Run [] (Normal {| status := 400;
                       body := Json (VObj {[ "error" := VStr "Unsupported currency" ]}) |})) ∧
  (∀ err, isValidAmount a = true → currency_allowed ext c = Throw err →
   create_payment_intent_handler ext body =
     Run [ConsoleError "create-payment-intent error:" (LogError err)]
         (Normal {| status := 500;
                    body := Json (VObj {[ "error" := VStr "Server error" ]}) |})) ∧
  (currency_allowed ext c ≠ Normal true ∨ isValidAmount a = false →
   processor_calls (trace (create_payment_intent_handler ext body)) = []).
Proof.
  intros Hd. unfold create_payment_intent_handler, create_payment_intent_try, try_catch.
  rewrite Hd. split; [|split; [|split]].
  - intros Ha. simpl. by rewrite Ha.
  - intros Ha Hc. simpl. rewrite Ha. simpl. by rewrite Hc.
  - intros err Ha Hc. simpl. rewrite Ha. simpl. by rewrite Hc.
  - intros Hno. simpl. destruct (isValidAmount a); simpl; [|done].
    destruct Hno as [Hno|Hno]; [|done].
    by destruct (currency_allowed ext c) as [[]|err].
Qed.

Lemma invalid_request_rejected_witness :
  create_payment_intent_handler accepting body_negative =
    Run [] (Normal {| status := 400;
                      body := Json (VObj {[ "error" := VStr "Invalid amount" ]}) |}) ∧
  create_payment_intent_handler accepting body_jpy =
    Run [] (Normal {| status := 400;
                      body := Json (VObj {[ "error" := VStr "Unsupported currency" ]}) |}) ∧
  create_payment_intent_handler accepting body_unprintable_currency =
    Run [ConsoleError "create-payment-intent error:"
           (LogError (TypeError "Cannot convert object to primitive value"))]
        (Normal {| status := 500;
                   body := Json (VObj {[ "error" := VStr "Server error" ]}) |}) ∧
  processor_calls
    (trace (create_payment_intent_handler accepting body_unprintable_currency)) = [].
Proof.
  split; [|split; [|split]].
  - apply (invalid_request_rejected accepting body_negative
             (VNum (of_Z (-5))) (VStr "usd") (VObj ∅)); reflexivity.
  - apply (invalid_request_rejected accepting body_jpy
             (VNum (of_Z 1000)) (VStr "jpy") (VObj ∅)); reflexivity.
  - destruct (invalid_request_rejected accepting body_unprintable_currency
                (VNum (of_Z 1000)) (VObj {[ "toString" := VNum (of_Z 1) ]}) (VObj ∅)
                eq_refl) as (_ & _ & H & _).
    exact (H _ eq_refl eq_refl).
  - destruct (invalid_request_rejected accepting body_unprintable_currency
                (VNum (of_Z 1000)) (VObj {[ "toString" := VNum (of_Z 1) ]}) (VObj ∅)
                eq_refl) as (_ & _ & _ & H).
    apply H. left. discriminate.
Defined.

(** The outcomes the two checks leave open end in the [catch] block: a body
    that is [undefined] or [null] cannot be destructured, and [String] throws
    on a currency that is an object with an own [toString] property. *)
Lemma missing_body_is_server_error (ext : Externals) (body : value) :
  is_nullish body = true →
  ∃ err, create_payment_intent_handler ext body =
    Run [ConsoleError "create-payment-intent error:" (LogError err)]
        (Normal {| status := 500;
                   body := Json (VObj {[ "error" := VStr "Server error" ]}) |}).
Proof.
  intros Hn. unfold create_payment_intent_handler, create_payment_intent_try,
    try_catch, destructure_body. rewrite Hn. simpl. by eexists.
Qed.

Lemma unconvertible_currency_is_server_error
    (ext : Externals) (body a c m : value) (err : JsError) :
  destructure_body body = Normal (a, c, m) →
  isValidAmount a = true →
  String_ ext c = Throw err →
  create_payment_intent_handler ext body =
    Run [ConsoleError "create-payment-intent error:" (LogError err)]
        (Normal {| status := 500;
                   body := Json (VObj {[ "error" := VStr "Server error" ]}) |}).
Proof.
  intros Hd Ha Hc.
  unfold create_payment_intent_handler, create_payment_intent_try, try_catch.
  rewrite Hd. simpl. rewrite Ha. simpl. unfold currency_allowed. by rewrite Hc.
Qed.

(** C9. The amount is checked before the currency: for every request whose
    body destructures and in which neither the amount nor the currency is
    valid (the currency check evaluates to false or throws), the response is
    400 with the message "Invalid amount", not "Unsupported currency". *)
Theorem amount_checked_before_currency (ext : Externals) (body a c m : value) :
  destructure_body body = Normal (a, c, m) →
  isValidAmount a = false →
  currency_allowed ext c ≠ Normal true →
  create_payment_intent_handler ext body =
    Run [] (Normal {| status := 400;
                      body := Json (VObj {[ "error" := VStr "Invalid amount" ]}) |}) ∧
  result (create_payment_intent_handler ext body) ≠
    Normal {| status := 400;
              body := Json (VObj {[ "error" := VStr "Unsupported currency" ]}) |}.
Proof.
  intros Hd Ha _.
  assert (create_payment_intent_handler ext body =
    Run [] (Normal {| status := 400;
                      body := Json (VObj {[ "error" := VStr "Invalid amount" ]}) |})) as ->.
  { unfold create_payment_intent_handler, create_payment_intent_try, try_catch.
    rewrite Hd. simpl. by rewrite Ha. }
  split; [done|]. simpl. intros [=].
Qed.

Lemma amount_checked_before_currency_witness :
  create_payment_intent_handler accepting body_negative_jpy =
    Run [] (Normal {| status := 400;
                      body := Json (VObj {[ "error" := VStr "Invalid amount" ]}) |}) ∧
  result (create_payment_intent_handler accepting body_negative_jpy) ≠
    Normal {| status := 400;
              body := Json (VObj {[ "error" := VStr "Unsupported currency" ]}) |}.
Proof.
  apply (amount_checked_before_currency accepting body_negative_jpy
           (VNum (of_Z (-5))) (VStr "jpy") (VObj ∅)).
  - reflexivity.
  - reflexivity.
  - discriminate.
Defined.

(** *** The metadata coercion *)

Lemma mapM_Normal {A B} (f : A → completion B) (l : list A) (l' : list B) :
  mapM f l = Normal l' → Forall2 (λ x y, f x = Normal y) l l'.
Proof.
  revert l'. induction l as [|x l IH]; intros l'; simpl.
  - intros [= <-]. constructor.
  - destruct (f x) as [y|e] eqn:Hx; simpl; [|done].
    destruct (mapM f l) as [k|e]; simpl; [|done].
    intros [= <-]. constructor; auto.
Qed.

Lemma foldl_insert_list_to_map (l : list (string * string)) (acc : gmap string string) :
  NoDup l.*1 →
  foldl (λ obj kv, <[kv.1 := kv.2]> obj) acc l = list_to_map l ∪ acc.
Proof.
  revert acc. induction l as [|[k v] l IH]; intros acc Hnd.
  - simpl. by rewrite (left_id_L ∅ (∪)).
  - rewrite fmap_cons in Hnd. apply NoDup_cons in Hnd as [Hk Hnd].
    simpl. rewrite IH by done.
    rewrite <- insert_union_l. symmetry. apply insert_union_r.
    by apply not_elem_of_list_to_map_1.
Qed.

Lemma Object_fromEntries_lookup (l : list (string * string)) (k s : string) :
  NoDup l.*1 → Object_fromEntries l !! k = Some s ↔ (k, s) ∈ l.
Proof.
  intros Hnd. unfold Object_fromEntries.
  rewrite foldl_insert_list_to_map, (right_id_L ∅ (∪)) by done.
  symmetry. by apply elem_of_list_to_map.
Qed.

Lemma coerce_metadata_object (ext : Externals) (props : gmap string value)
    (md : gmap string string) :
  coerce_metadata ext (VObj props) = Normal md →
  ∀ k s, md !! k = Some s ↔ ∃ v, props !! k = Some v ∧ String_ ext v = Normal s.
Proof.
  unfold coerce_metadata. simpl.
  destruct (mapM _ (map_to_list props)) as [mapped|e] eqn:Hm; simpl; [|done].
  intros [= <-] k s. apply mapM_Normal in Hm.
  assert (mapped.*1 = (map_to_list props).*1) as Hkeys.
  { clear -Hm. induction Hm as [|[k v] [k' s'] l l' H _ IH]; simpl; [done|].
    simpl in H. destruct (String_ ext v); simpl in H; [|done].
    injection H as <- _. by f_equal. }
  rewrite Object_fromEntries_lookup
    by (rewrite Hkeys; apply NoDup_fst_map_to_list).
  split.
  - intros Hin. apply list_elem_of_lookup in Hin as [i Hi].
    destruct (Forall2_lookup_r _ _ _ _ _ Hm Hi) as ([k' v] & Hv & Hf).
    simpl in Hf. destruct (String_ ext v) as [s'|] eqn:Hs; simpl in Hf; [|done].
    injection Hf as -> ->. exists v. split; [|done].
    apply elem_of_map_to_list. apply list_elem_of_lookup. eauto.
  - intros (v & Hv & Hs). apply elem_of_map_to_list in Hv.
    apply list_elem_of_lookup in Hv as [i Hi].
    destruct (Forall2_lookup_l _ _ _ _ _ Hm Hi) as ([k' s'] & Hs' & Hf).
    simpl in Hf. rewrite Hs in Hf. simpl in Hf. injection Hf as <- <-.
    apply list_elem_of_lookup. eauto.
Qed.

(** *** The success path and the processor's failures *)






(** C5. Whenever the handler's call to the processor throws, whatever the
    exception, the handler catches it, logs it with [console.error] and
    responds 500 with the body [{error: "Server error"}], in which nothing of
    the exception appears. *)
Theorem processor_failure_is_opaque
    (ext : Externals) (body : value) (params : PaymentIntentCreateParams)
    (err : JsError) :
  PaymentIntentsCreate params ∈ trace (create_payment_intent_try ext body) →
  paymentIntents_create ext params = Throw err →
  create_payment_intent_handler ext body =
    Run [PaymentIntentsCreate params;
         ConsoleError "create-payment-intent error:" (LogError err)]
        (Normal {| status := 500;
                   body := Json (VObj {[ "error" := VStr "Server error" ]}) |}).
Proof.
  unfold create_payment_intent_handler, create_payment_intent_try, try_catch.
  destruct (destructure_body body) as [[[a c] m]|e]; simpl;
    [|by intros ?%elem_of_nil].
  destruct (isValidAmount a); simpl; [|by intros ?%elem_of_nil].
  destruct (currency_allowed ext c) as [[]|e]; simpl;
    try by intros ?%elem_of_nil.
  destruct (String_ ext c) as [cur|e]; simpl; [|by intros ?%elem_of_nil].
  destruct (coerce_metadata ext m) as [md|e]; simpl; [|by intros ?%elem_of_nil].
  set (p := {| amount := a; currency := toLowerCase cur;
               automatic_payment_methods_enabled := true; metadata := md |}).
  intros Hin Herr.
  assert (params = p) as ->.
  { destruct (paymentIntents_create ext p); simpl in Hin;
      apply list_elem_of_singleton in Hin; congruence. }
  by rewrite Herr.
Qed.

Lemma processor_failure_is_opaque_witness :
  create_payment_intent_handler declining body_usd =
    Run [PaymentIntentsCreate
           {| amount := VNum (of_Z 2500);
              currency := "usd";
              automatic_payment_methods_enabled := true;
              metadata := {[ "orderId" := "42" ]} |};
         ConsoleError "create-payment-intent error:"
           (LogError {| err_name := "StripeCardError";
                        err_message := "Your card was declined." |})]
        (Normal {| status := 500;
                   body := Json (VObj {[ "error" := VStr "Server error" ]}) |}).
Proof.
  apply (processor_failure_is_opaque declining body_usd).
  - vm_compute. apply elem_of_cons. by left.
  - reflexivity.
Defined.

(** ** The webhook handler *)



(** The [catch] of lines 68-71 in the unverified mode: when no signing secret
    is configured and [JSON.parse] throws on [req.body], the handler responds
    400 with the text "Webhook Error: " followed by the parse failure's
    message, and the [switch] is not reached. *)
Lemma webhook_fallback_parse_failure
    (ext : Externals) (env : gmap string string) (sig : option string)
    (body : value) (err : JsError) :
  env !! "STRIPE_WEBHOOK_SECRET" = None ∨ env !! "STRIPE_WEBHOOK_SECRET" = Some "" →
  JSON_parse ext body = Throw err →
  webhook_handler ext env sig body =
    Run [ConsoleError "Webhook signature verification failed."
           (LogValue (VStr (err_message err)))]
        (Normal {| status := 400;
                   body := Text ("Webhook Error: " +:+ err_message err) |}).
Proof.
  intros Hs Hp.
  assert (obtain_event ext env sig body = pure (JSON_parse ext body)) as Hob.
  { unfold obtain_event, endpointSecret. by destruct Hs as [-> | ->]. }
  unfold webhook_handler, try_catch. rewrite Hob, Hp. reflexivity.
Qed.

(** C10.  The code does not do what the claim says.  [express.json()] (line
    20) reads every [application/json] body before the webhook route is
    reached: when the raw body of a delivery is not JSON, the parser's error
    goes to Express's error handling, and neither the handler nor its
    [catch] runs; no response with "Webhook Error:" is sent. *)
Theorem malformed_webhook_body_stops_at_parser
    (ext : Externals) (env : gmap string string) (req : request)
    (text : string) (err : JsError) :
  cors_origin env (req_origin req) = Normal true →
  req_route req = Webhook →
  req_entity req = JsonBody text →
  text ≠ "" →
  JSON_parse_text ext text = Throw err →
  ∃ err', (err' = err ∨ err_name err' = "SyntaxError") ∧
          express_json ext (req_entity req) = Throw err' ∧
          app ext env req = Run [] (Throw err').
Proof.
  intros Hc _ He Hne Hp.
  assert (∃ err', (err' = err ∨ err_name err' = "SyntaxError") ∧
                  express_json ext (req_entity req) = Throw err')
    as (err' & Herr & Hx).
  { rewrite He. unfold express_json. rewrite bool_decide_eq_false_2 by done.
    destruct (first_char text) as [c|];
      [|eexists; split; [|reflexivity]; by right].
    destruct (_ || _); [|eexists; split; [|reflexivity]; by right].
    exists err. by split; [left|]. }
  exists err'. split; [done|]. split; [done|].
  unfold app, routes. rewrite Hc, Hx. reflexivity.
Qed.

Lemma malformed_webhook_body_stops_at_parser_witness :
  express_json accepting (JsonBody "{oops") =
    Throw (SyntaxError "Unexpected token in JSON") ∧
  app accepting env_no_secret req_malformed_webhook =
    Run [] (Throw (SyntaxError "Unexpected token in JSON")).
Proof.
  destruct (malformed_webhook_body_stops_at_parser accepting env_no_secret
              req_malformed_webhook "{oops" (SyntaxError "Unexpected token in JSON"))
    as (err' & _ & Hx & Happ); [reflexivity | reflexivity | reflexivity
                               | discriminate | reflexivity |].
  assert (err' = SyntaxError "Unexpected token in JSON") as ->
    by (by injection Hx).
  by split.
Defined.

(** *** Dispatch on the event type *)

Lemma result_bind {A B} (m : M A) (f : A → M B) :
  result (m ≫= f) =
    match result m with Normal a => result (f a) | Throw e => Throw e end.
Proof. unfold mbind, M_bind. by destruct (result m). Qed.

Lemma dispatch_result (event : value) :
  result (dispatch event) = Normal () ↔ dispatch_safe event = true.
Proof.
  unfold dispatch, dispatch_safe.
  destruct event as [| | | | | |props]; simpl; try done.
  destruct (default VUndefined (props !! "type")) as [| | | |ty| |];
    simpl; try done.
  repeat case_bool_decide; simpl; try done.
  - destruct (default VUndefined (props !! "data")); simpl; done.
  - destruct (default VUndefined (props !! "data")) as [| | | | | |dprops];
      simpl; try done.
    destruct (default VUndefined (dprops !! "object")) as [| | | | | |oprops];
      simpl; try done.
    destruct (default VUndefined (oprops !! "last_payment_error"))
      as [| | | | | |lprops]; simpl; done.
Qed.

Lemma dispatch_unhandled (event : value) :
  is_nullish event = false →
  handled_type (own event "type") = false →
  dispatch event = Run [SwitchOn (own event "type")] (Normal ()).
Proof.
  unfold dispatch, handled_type. intros Hn [H1 H2]%orb_false_iff.
  destruct event; try discriminate; simpl in *;
    try reflexivity.
  by rewrite H1, H2.
Qed.

(** C7 as stated fails: with no signing secret, a delivery whose body is the
    array holding the text [{"type":"payment_intent.payment_failed"}] reaches
    the handler as that array, [JSON.parse] converts it to the text and
    parses it into an event, and the handler throws on [event.data.object]
    instead of responding. *)
Lemma bare_event_counterexample :
  obtain_event accepting env_no_secret None (VArr [VStr bare_failed_event_text]) =
    Run [] (Normal (VObj {[ "type" := VStr "payment_intent.payment_failed" ]})) ∧
  webhook_handler accepting env_no_secret None (VArr [VStr bare_failed_event_text]) =
    Run [SwitchOn (VStr "payment_intent.payment_failed")]
        (Throw (TypeError "Cannot read properties of undefined (reading 'object')")).
Proof. repeat split; reflexivity. Qed.

(** C7, amended.  For every webhook request from which an event is obtained
    (by signature verification or by the unverified parse), the handler
    responds 200 with [{received: true}] exactly when the event has the shape
    the [switch] relies on ([dispatch_safe]); in particular every such event
    whose type is neither [payment_intent.succeeded] nor
    [payment_intent.payment_failed] is acknowledged with no effect beyond
    what obtaining it took. *)
Theorem webhook_acknowledges_event
    (ext : Externals) (env : gmap string string) (sig : option string)
    (body : value) (t : list effect) (event : value) :
  obtain_event ext env sig body = Run t (Normal event) →
  (result (webhook_handler ext env sig body) =
     Normal {| status := 200; body := Json (VObj {[ "received" := VBool true ]}) |}
   ↔ dispatch_safe event = true) ∧
  (is_nullish event = false → handled_type (own event "type") = false →
   webhook_handler ext env sig body =
     Run (t ++ [SwitchOn (own event "type")])
         (Normal {| status := 200; body := Json (VObj {[ "received" := VBool true ]}) |})).
Proof.
  intros Hob. unfold webhook_handler, try_catch. rewrite Hob. simpl. split.
  - rewrite <- dispatch_result, result_bind.
    destruct (result (dispatch event)) as [[]|e]; simpl; split; done.
  - intros Hn Hty. by rewrite (dispatch_unhandled _ Hn Hty).
Qed.

Lemma webhook_acknowledges_event_witness :
  result (webhook_handler verifying env_secret (Some "t=1,v1=5257a8") parsed_delivery) =
    Normal {| status := 200; body := Json (VObj {[ "received" := VBool true ]}) |} ∧
  webhook_handler accepting env_no_secret None (VArr [VStr "{}"]) =
    Run [SwitchOn VUndefined]
        (Normal {| status := 200; body := Json (VObj {[ "received" := VBool true ]}) |}).
Proof.
  split.
  - destruct (webhook_acknowledges_event verifying env_secret (Some "t=1,v1=5257a8")
                parsed_delivery
                [ConstructEvent parsed_delivery (Some "t=1,v1=5257a8") "whsec_test"]
                failed_event eq_refl) as [Hiff _].
    apply Hiff. reflexivity.
  - destruct (webhook_acknowledges_event accepting env_no_secret None (VArr [VStr "{}"])
                [] (VObj ∅) eq_refl) as [_ Hother].
    exact (Hother eq_refl eq_refl).
Defined.

(** ** The CORS gate *)

Lemma allowed_not_empty_string (env : gmap string string) : "" ∉ allowed env.
Proof. unfold allowed. rewrite list_elem_of_filter. by intros [? _]. Qed.

(** C8 as stated fails: under a non-empty allow-list, a request whose
    [Origin] header is present and empty is permitted, although its origin is
    not in the list. *)
Lemma empty_origin_counterexample :
  cors_origin env_origins (Some "") = Normal true ∧
  ¬ (Some "" = @None string ∨ allowed env_origins = [] ∨ "" ∈ allowed env_origins).
Proof.
  split; [reflexivity|].
  intros [H|[H|H]]; [discriminate H|discriminate H|].
  by apply allowed_not_empty_string in H.
Qed.

(** C8, amended.  For every incoming request, the CORS gate permits the
    request if and only if it has no [Origin] header or an empty one, or the
    allow-list is empty, or its origin is in the allow-list.  A permitted
    request goes on to the routes; every other request is refused with the
    error "Not allowed by CORS" and reaches no handler. *)
Theorem cors_gate_spec
    (ext : Externals) (env : gmap string string) (req : request) :
  (cors_origin env (req_origin req) = Normal true ↔
     req_origin req = None ∨ req_origin req = Some "" ∨ allowed env = [] ∨
     ∃ o, req_origin req = Some o ∧ o ∈ allowed env) ∧
  (cors_origin env (req_origin req) = Normal true →
     app ext env req = routes ext env req) ∧
  (cors_origin env (req_origin req) ≠ Normal true →
     cors_origin env (req_origin req) = Throw (new_Error "Not allowed by CORS") ∧
     app ext env req = Run [] (Throw (new_Error "Not allowed by CORS"))).
Proof.
  split; [|split].
  - unfold cors_origin.
    destruct (req_origin req) as [o|]; simpl; [|by intuition].
    repeat case_bool_decide; simpl; split; try done; intros Hp.
    all: try (subst o; by eauto).
    all: try by eauto 6.
    all: try (right; right; left; by apply nil_length_inv).
    destruct Hp as [Hp|[Hp|[Hp|(o' & Ho & Hp)]]]; simplify_eq; try done.
    by rewrite Hp in *.
  - intros H. unfold app. by rewrite H.
  - intros H. unfold app, cors_origin in *.
    destruct (_ || _); [done|]. done.
Qed.

Lemma cors_gate_spec_witness :
  app accepting env_origins req_foreign =
    Run [] (Throw (new_Error "Not allowed by CORS")) ∧
  app accepting env_origins req_shop = routes accepting env_origins req_shop.
Proof.
  split.
  - destruct (cors_gate_spec accepting env_origins req_foreign) as (_ & _ & H).
    apply H. discriminate.
  - destruct (cors_gate_spec accepting env_origins req_shop) as (_ & H & _).
    apply H. reflexivity.
Defined.

(** ** Further properties of the payment-intent handler *)

(** X1. The payment-intent handler answers every request: it never throws,
    and its status is 200, 400 or 500.  It answers 200 only after one
    successful processor call, with that intent's client secret, and a 400
    answer comes with no effect at all. *)
Theorem create_payment_intent_always_responds (ext : Externals) (body : value) :
  ∃ r, result (create_payment_intent_handler ext body) = Normal r ∧
    (status r = 200 ∨ status r = 400 ∨ status r = 500) ∧
    (status r = 200 →
       ∃ p intent,
         trace (create_payment_intent_handler ext body) = [PaymentIntentsCreate p] ∧
         paymentIntents_create ext p = Normal intent ∧
         r = {| status := 200;
                body := Json (VObj {[ "clientSecret" := client_secret intent ]}) |}) ∧
    (status r = 400 → trace (create_payment_intent_handler ext body) = []).
Proof.
  unfold create_payment_intent_handler, create_payment_intent_try, try_catch.
  destruct (destructure_body body) as [[[a c] m]|e]; simpl;
    [|eexists; split; [done|]; simpl; repeat split; try discriminate; auto].
  destruct (isValidAmount a); simpl;
    [|eexists; split; [done|]; simpl; repeat split; try discriminate; auto].
  destruct (currency_allowed ext c) as [[]|e]; simpl;
    try (eexists; split; [done|]; simpl; repeat split; try discriminate; auto; fail).
  destruct (String_ ext c) as [cur|e]; simpl;
    [|eexists; split; [done|]; simpl; repeat split; try discriminate; auto].
  destruct (coerce_metadata ext m) as [md|e]; simpl;
    [|eexists; split; [done|]; simpl; repeat split; try discriminate; auto].
  destruct (paymentIntents_create ext _) as [intent|e] eqn:Hcreate; simpl;
    [|eexists; split; [done|]; simpl; repeat split; try discriminate; auto].
  eexists; split; [done|]. simpl. repeat split; try discriminate; auto.
  intros _. eauto.
Qed.

Lemma create_payment_intent_always_responds_witness :
  trace (create_payment_intent_handler accepting body_jpy) = [].
Proof.
  destruct (create_payment_intent_always_responds accepting body_jpy)
    as (r & Hr & _ & _ & H400).
  apply H400. injection Hr as <-. reflexivity.
Defined.

Lemma isValidAmount_range (v : value) :
  isValidAmount v = true → ∃ z : Z, v = VNum (of_Z z) ∧ 0 < z ≤ 50000000.
Proof.
  unfold isValidAmount. rewrite !andb_true_iff. intros [[Hint Hgt] Hle].
  destruct v as [| | |[| |q]| | |]; simpl in *; try discriminate.
  apply bool_decide_eq_true in Hint.
  exists (Qnum (this q)). split.
  - unfold of_Z. by rewrite <- Finite_den_1.
  - destruct q as [[n d] Hc]; simpl in *. subst d.
    unfold Qcompare in *; simpl in *. rewrite !Z.mul_1_r in *.
    destruct (Z.compare_spec n 0), (Z.compare_spec n 50000000);
      try discriminate; lia.
Qed.

(** X2. The processor is only ever asked for an intent whose amount passed
    the amount check, an integer number of cents from 1 to 50,000,000, and
    whose currency is one of the five allowed codes, with automatic payment
    methods enabled; and it is asked at most once per request. *)
Theorem processor_called_only_with_valid_params
    (ext : Externals) (body : value) (p : PaymentIntentCreateParams) :
  PaymentIntentsCreate p ∈ trace (create_payment_intent_handler ext body) →
  isValidAmount (amount p) = true ∧
  (∃ z : Z, amount p = VNum (of_Z z) ∧ 0 < z ≤ 50000000) ∧
  currency p ∈ ["usd"; "cad"; "eur"; "gbp"; "aud"] ∧
  automatic_payment_methods_enabled p = true ∧
  processor_calls (trace (create_payment_intent_handler ext body)) = [p].
Proof.
  unfold create_payment_intent_handler, create_payment_intent_try, try_catch.
  destruct (destructure_body body) as [[[a c] m]|e]; simpl;
    [|rewrite list_elem_of_singleton; discriminate].
  destruct (isValidAmount a) eqn:Ha; simpl; [|by intros ?%elem_of_nil].
  unfold currency_allowed.
  destruct (String_ ext c) as [cur|e]; simpl;
    [|rewrite list_elem_of_singleton; discriminate].
  destruct (Set_has allowedCurrencies (toLowerCase cur)) eqn:Hc; simpl;
    [|by intros ?%elem_of_nil].
  destruct (coerce_metadata ext m) as [md|e]; simpl;
    [|rewrite list_elem_of_singleton; discriminate].
  apply bool_decide_eq_true, allowedCurrencies_elem in Hc.
  destruct (paymentIntents_create ext _) as [intent|e]; simpl.
  - rewrite list_elem_of_singleton. intros [= ->]. simpl.
    split; [done|]. split; [by apply isValidAmount_range|done].
  - intros [[= ->]|Hin%list_elem_of_singleton]%elem_of_cons; [|discriminate].
    simpl. split; [done|]. split; [by apply isValidAmount_range|done].
Qed.

Lemma processor_called_only_with_valid_params_witness :
  isValidAmount (VNum (of_Z 2500)) = true ∧
  processor_calls (trace (create_payment_intent_handler declining body_usd)) =
    [ {| amount := VNum (of_Z 2500);
         currency := "usd";
         automatic_payment_methods_enabled := true;
         metadata := {[ "orderId" := "42" ]} |} ].
Proof.
  destruct (processor_called_only_with_valid_params declining body_usd
              {| amount := VNum (of_Z 2500);
                 currency := "usd";
                 automatic_payment_methods_enabled := true;
                 metadata := {[ "orderId" := "42" ]} |}) as (Ha & _ & _ & _ & Hcalls).
  - vm_compute. apply elem_of_cons. by left.
  - split; [exact Ha | exact Hcalls].
Defined.

(** X3. [amountInCents] is required and must be a Number: for every request
    body other than [undefined] and [null] whose own property [amountInCents]
    is absent or is not a Number (a numeric string, [null], a boolean, an
    array, an object), and for every body that is not an object at all, the
    answer is 400 "Invalid amount", with no effect. *)
Theorem amount_required (ext : Externals) (body : value) :
  is_nullish body = false →
  (∀ n, own body "amountInCents" ≠ VNum n) →
  create_payment_intent_handler ext body =
    Run [] (Normal {| status := 400;
                      body := Json (VObj {[ "error" := VStr "Invalid amount" ]}) |}).
Proof.
  intros Hn Ha.
  assert (∃ a c m, destructure_body body = Normal (a, c, m) ∧ isValidAmount a = false)
    as (a & c & m & Hd & Hinv).
  { destruct body; try discriminate; simpl in *; try (by eauto).
    do 3 eexists. split; [done|].
    destruct (default VUndefined (props !! "amountInCents")) as [| | |n| | |];
      try done. by destruct (Ha n). }
  unfold create_payment_intent_handler, create_payment_intent_try, try_catch.
  rewrite Hd. simpl. by rewrite Hinv.
Qed.

Lemma amount_required_witness :
  create_payment_intent_handler accepting body_string_amount =
    Run [] (Normal {| status := 400;
                      body := Json (VObj {[ "error" := VStr "Invalid amount" ]}) |}).
Proof.
  apply (amount_required accepting body_string_amount).
  - reflexivity.
  - intros n. vm_compute. discriminate.
Defined.

(** X21. Every 500 answer of the payment-intent handler is logged: the last
    effect is one [console.error] with the label "create-payment-intent
    error:" and the exception, which was thrown either before any processor
    call or by the one processor call made. *)
Theorem server_error_is_logged (ext : Externals) (body : value) (r : response) :
  result (create_payment_intent_handler ext body) = Normal r →
  status r = 500 →
  ∃ err,
    (trace (create_payment_intent_handler ext body) =
       [ConsoleError "create-payment-intent error:" (LogError err)]) ∨
    (∃ p, paymentIntents_create ext p = Throw err ∧
          trace (create_payment_intent_handler ext body) =
            [PaymentIntentsCreate p;
             ConsoleError "create-payment-intent error:" (LogError err)]).
Proof.
  unfold create_payment_intent_handler, create_payment_intent_try, try_catch.
  destruct (destructure_body body) as [[[a c] m]|e]; simpl; [|by eauto].
  destruct (isValidAmount a); simpl; [|by intros [= <-]].
  destruct (currency_allowed ext c) as [[]|e]; simpl;
    [|by intros [= <-]|by eauto].
  destruct (String_ ext c) as [cur|e]; simpl; [|by eauto].
  destruct (coerce_metadata ext m) as [md|e]; simpl; [|by eauto].
  destruct (paymentIntents_create ext _) as [intent|e] eqn:Hcreate; simpl;
    [by intros [= <-]|].
  intros _ _. exists e. right. eauto.
Qed.

Lemma server_error_is_logged_witness :
  ∃ err,
    (trace (create_payment_intent_handler declining body_usd) =
       [ConsoleError "create-payment-intent error:" (LogError err)]) ∨
    (∃ p, paymentIntents_create declining p = Throw err ∧
          trace (create_payment_intent_handler declining body_usd) =
            [PaymentIntentsCreate p;
             ConsoleError "create-payment-intent error:" (LogError err)]).
Proof.
  apply (server_error_is_logged declining body_usd
           {| status := 500; body := Json (VObj {[ "error" := VStr "Server error" ]}) |});
    reflexivity.
Defined.

(** *** The currency *)

Lemma lower_char_idemp (c : ascii) : lower_char (lower_char c) = lower_char c.
Proof. by destruct c as [[] [] [] [] [] [] [] []]. Qed.

Lemma toLowerCase_idemp (s : string) : toLowerCase (toLowerCase s) = toLowerCase s.
Proof. induction s as [|c s IH]; simpl; [done|]. by rewrite lower_char_idemp, IH. Qed.

(** X4. The letter case of the currency does not matter: a request whose
    currency is the string [c] and the same request with [c] lower-cased have
    the same outcome, effects and processor call included. *)
Theorem currency_case_insensitive
    (ext : Externals) (props : gmap string value) (c : string) :
  create_payment_intent_handler ext (VObj (<["currency" := VStr c]> props)) =
  create_payment_intent_handler ext (VObj (<["currency" := VStr (toLowerCase c)]> props)).
Proof.
  unfold create_payment_intent_handler, create_payment_intent_try, destructure_body.
  simpl. rewrite !lookup_insert_eq, !lookup_insert_ne by done. simpl.
  unfold currency_allowed, String_. simpl. by rewrite !toLowerCase_idemp.
Qed.

(** X5. The default currency stands in for an absent [currency] only: for a
    request with a valid amount whose [currency] is [null] or a boolean, the
    answer is 400 "Unsupported currency", with no effect. *)
Theorem null_currency_is_unsupported
    (ext : Externals) (body a c m : value) :
  destructure_body body = Normal (a, c, m) →
  isValidAmount a = true →
  c = VNull ∨ (∃ b, c = VBool b) →
  create_payment_intent_handler ext body =
    Run [] (Normal {| status := 400;
                      body := Json (VObj {[ "error" := VStr "Unsupported currency" ]}) |}).
Proof.
  intros Hd Ha Hc.
  unfold create_payment_intent_handler, create_payment_intent_try, try_catch.
  rewrite Hd. simpl. rewrite Ha. simpl.
  by destruct Hc as [->|[[] ->]].
Qed.

Lemma null_currency_is_unsupported_witness :
  create_payment_intent_handler accepting body_null_currency =
    Run [] (Normal {| status := 400;
                      body := Json (VObj {[ "error" := VStr "Unsupported currency" ]}) |}).
Proof.
  apply (null_currency_is_unsupported accepting body_null_currency
           (VNum (of_Z 2500)) VNull (VObj ∅)).
  - reflexivity.
  - reflexivity.
  - by left.
Defined.

(** *** The metadata *)

Lemma mapM_Throw {A B} (f : A → completion B) (l : list A) (e : JsError) :
  mapM f l = Throw e → ∃ x, x ∈ l ∧ f x = Throw e.
Proof.
  induction l as [|x l IH]; simpl; [done|].
  destruct (f x) as [y|e'] eqn:Hx; simpl.
  - destruct (mapM f l) as [k|e'']; simpl; [done|].
    intros [= ->]. destruct IH as (x' & Hin & Hx'); [done|].
    exists x'. split; [by apply elem_of_cons; right|done].
  - intros [= ->]. exists x. split; [by apply elem_of_cons; left|done].
Qed.

Lemma String_primitive (ext : Externals) (v : value) :
  is_primitive v = true → ∃ s, String_ ext v = Normal s.
Proof. destruct v; try discriminate; intros _; simpl; eauto. Qed.

Lemma coerce_metadata_values (ext : Externals) (props : gmap string value)
    (md : gmap string string) (k : string) (v : value) :
  coerce_metadata ext (VObj props) = Normal md →
  props !! k = Some v → ∃ s, String_ ext v = Normal s.
Proof.
  unfold coerce_metadata. simpl.
  destruct (mapM _ (map_to_list props)) as [mapped|e] eqn:Hm; simpl; [|done].
  intros _ Hk. apply mapM_Normal in Hm.
  apply elem_of_map_to_list, list_elem_of_lookup in Hk as [i Hi].
  destruct (Forall2_lookup_l _ _ _ _ _ Hm Hi) as (y & _ & Hf).
  simpl in Hf. destruct (String_ ext v); [eauto|done].
Qed.

Lemma coerce_metadata_throws (ext : Externals) (props : gmap string value)
    (e : JsError) :
  coerce_metadata ext (VObj props) = Throw e →
  ∃ k v, props !! k = Some v ∧ String_ ext v = Throw e.
Proof.
  unfold coerce_metadata. simpl.
  destruct (mapM _ (map_to_list props)) as [mapped|e'] eqn:Hm; simpl; [done|].
  intros [= ->]. apply mapM_Throw in Hm as ([k v] & Hin & Hf).
  exists k, v. split; [by apply elem_of_map_to_list|].
  simpl in Hf. destruct (String_ ext v) as [s|e']; simpl in Hf; congruence.
Qed.

Lemma coerce_metadata_total (ext : Externals) (props : gmap string value) :
  (∀ k v, props !! k = Some v → ∃ s, String_ ext v = Normal s) →
  ∃ md, coerce_metadata ext (VObj props) = Normal md.
Proof.
  intros Hall. destruct (coerce_metadata ext (VObj props)) as [md|e] eqn:Hc; [eauto|].
  destruct (coerce_metadata_throws _ _ _ Hc) as (k & v & Hk & Hs).
  destruct (Hall k v Hk) as [s Hs']. congruence.
Qed.

Lemma coerce_metadata_dom (ext : Externals) (props : gmap string value)
    (md : gmap string string) :
  coerce_metadata ext (VObj props) = Normal md → dom md = dom props.
Proof.
  intros Hc. apply set_eq. intros k. rewrite !elem_of_dom. split.
  - intros [s Hs]. apply (coerce_metadata_object _ _ _ Hc) in Hs as (v & Hv & _).
    eauto.
  - intros [v Hv]. destruct (coerce_metadata_values _ _ _ _ _ Hc Hv) as [s Hs].
    exists s. apply (coerce_metadata_object _ _ _ Hc). eauto.
Qed.

(** X6. The coercion of a metadata object succeeds exactly when [String]
    converts every one of its values; when it fails, it throws the exception
    of one of the values. *)
Theorem coerce_metadata_succeeds_iff (ext : Externals) (props : gmap string value) :
  ((∃ md, coerce_metadata ext (VObj props) = Normal md) ↔
   ∀ k v, props !! k = Some v → ∃ s, String_ ext v = Normal s) ∧
  (∀ e, coerce_metadata ext (VObj props) = Throw e →
        ∃ k v, props !! k = Some v ∧ String_ ext v = Throw e).
Proof.
  split; [|apply coerce_metadata_throws]. split.
  - intros [md Hmd] k v Hk. by eapply coerce_metadata_values.
  - apply coerce_metadata_total.
Qed.

Lemma coerce_metadata_succeeds_iff_witness :
  ∃ s, String_ accepting (VNum (of_Z 42)) = Normal s.
Proof.
  destruct (coerce_metadata_succeeds_iff accepting flat_metadata) as [[Hall _] _].
  apply (Hall (ex_intro _ _ eq_refl) "orderId"). reflexivity.
Defined.

(** X7. The coercion keeps the keys: when it succeeds on a metadata object,
    the mapping sent to the processor has exactly the keys of the object. *)
Theorem coerce_metadata_keeps_keys (ext : Externals) (props : gmap string value)
    (md : gmap string string) :
  coerce_metadata ext (VObj props) = Normal md →
  dom md = dom props ∧ size md = size props.
Proof.
  intros Hdom%coerce_metadata_dom. split; [done|]. by rewrite <- !size_dom, Hdom.
Qed.

Lemma coerce_metadata_keeps_keys_witness :
  dom ({[ "orderId" := "42" ]} : gmap string string) =
  dom ({[ "orderId" := VNum (of_Z 42) ]} : gmap string value).
Proof.
  apply (coerce_metadata_keeps_keys accepting). reflexivity.
Defined.

(** X8. Metadata that is falsy ([null], [false], [0], [NaN], the empty
    string), a boolean or a number has no entries: the processor receives an
    empty mapping. *)
Theorem non_mapping_metadata_is_empty (ext : Externals) (m : value) :
  ToBoolean m = false ∨ (∃ b, m = VBool b) ∨ (∃ n, m = VNum n) →
  coerce_metadata ext m = Normal ∅.
Proof.
  unfold coerce_metadata.
  intros [Hf|[[b ->]|[n ->]]].
  - rewrite Hf. simpl. by rewrite map_to_list_empty.
  - destruct b; simpl; [done|]. by rewrite map_to_list_empty.
  - destruct (ToBoolean (VNum n)); simpl; [done|]. by rewrite map_to_list_empty.
Qed.

Lemma non_mapping_metadata_is_empty_witness :
  coerce_metadata accepting VNull = Normal ∅ ∧
  coerce_metadata accepting (VNum (of_Z 7)) = Normal ∅.
Proof.
  split.
  - apply non_mapping_metadata_is_empty. by left.
  - apply non_mapping_metadata_is_empty. right; right. by eexists.
Defined.

Lemma handler_reaches_call
    (ext : Externals) (body a c m : value) (cur : string) (md : gmap string string) :
  destructure_body body = Normal (a, c, m) →
  isValidAmount a = true →
  String_ ext c = Normal cur →
  Set_has allowedCurrencies (toLowerCase cur) = true →
  coerce_metadata ext m = Normal md →
  processor_calls (trace (create_payment_intent_handler ext body)) =
    [ {| amount := a; currency := toLowerCase cur;
         automatic_payment_methods_enabled := true; metadata := md |} ].
Proof.
  intros Hd Ha Hcur Hc Hm.
  unfold create_payment_intent_handler, create_payment_intent_try, try_catch.
  rewrite Hd. simpl. rewrite Ha. simpl. unfold currency_allowed.
  rewrite Hcur. simpl. rewrite Hc. simpl. rewrite Hm. simpl.
  by destruct (paymentIntents_create ext _).
Qed.

(** X9. Flat metadata never stops a payment: for every request with a valid
    amount and an allowed currency whose metadata is an object of primitive
    values (strings, numbers, booleans, [null]), the processor is called
    exactly once, with a metadata mapping that has the same keys. *)
Theorem flat_metadata_reaches_processor
    (ext : Externals) (body a c : value) (props : gmap string value) :
  destructure_body body = Normal (a, c, VObj props) →
  isValidAmount a = true →
  currency_allowed ext c = Normal true →
  map_Forall (λ _ v, is_primitive v = true) props →
  ∃ p, processor_calls (trace (create_payment_intent_handler ext body)) = [p] ∧
       amount p = a ∧ dom (metadata p) = dom props.
Proof.
  intros Hd Ha Hc Hflat. unfold currency_allowed in Hc.
  destruct (String_ ext c) as [cur|] eqn:Hcur; simpl in Hc; [|done].
  injection Hc as Hc.
  destruct (coerce_metadata_total ext props) as [md Hmd].
  { intros k v Hk. apply String_primitive. by apply (Hflat k v). }
  eexists. split; [by eapply handler_reaches_call|]. simpl.
  split; [done|]. by apply (coerce_metadata_dom ext).
Qed.

Lemma flat_metadata_reaches_processor_witness :
  ∃ p, processor_calls
         (trace (create_payment_intent_handler accepting body_flat_metadata)) = [p] ∧
       amount p = VNum (of_Z 2500) ∧ dom (metadata p) = dom flat_metadata.
Proof.
  apply (flat_metadata_reaches_processor accepting body_flat_metadata
           (VNum (of_Z 2500)) (VStr "usd") flat_metadata).
  - reflexivity.
  - reflexivity.
  - reflexivity.
  - apply (bool_decide_unpack _). vm_compute. exact I.
Defined.

(** ** Further properties of the webhook handler *)

Lemma Get_own (v : value) (k : string) :
  is_nullish v = false → Get v k = Normal (own v k).
Proof. by destruct v. Qed.

Lemma webhook_handler_obtained
    (ext : Externals) (env : gmap string string) (sig : option string)
    (body : value) (t : list effect) (event : value) :
  obtain_event ext env sig body = Run t (Normal event) →
  webhook_handler ext env sig body =
    Run (t ++ trace (dispatch event))
        (match result (dispatch event) with
         | Normal _ => Normal received
         | Throw e => Throw e
         end).
Proof.
  intros Hob. unfold webhook_handler, try_catch. rewrite Hob. simpl.
  unfold mbind, M_bind. simpl.
  destruct (result (dispatch event)); simpl; [|done].
  by rewrite (right_id_L [] (++)).
Qed.

(** X10. Whenever the webhook handler responds, the response is one of two:
    200 [{received: true}] after an event was obtained and dispatched, or 400
    with the text "Webhook Error: " and the message of the exception that
    obtaining the event threw. *)
Theorem webhook_response_cases
    (ext : Externals) (env : gmap string string) (sig : option string)
    (body : value) (r : response) :
  result (webhook_handler ext env sig body) = Normal r →
  (∃ event, result (obtain_event ext env sig body) = Normal event ∧
            dispatch_safe event = true ∧
            r = {| status := 200; body := Json (VObj {[ "received" := VBool true ]}) |}) ∨
  (∃ err, result (obtain_event ext env sig body) = Throw err ∧
          r = {| status := 400; body := Text ("Webhook Error: " +:+ err_message err) |}).
Proof.
  destruct (obtain_event ext env sig body) as [t [event|err]] eqn:Hob.
  - rewrite (webhook_handler_obtained _ _ _ _ _ _ Hob). simpl.
    destruct (result (dispatch event)) as [[]|e] eqn:Hd; [|done].
    intros [= <-]. left. exists event. split; [done|]. split; [|done].
    by apply dispatch_result.
  - unfold webhook_handler, try_catch. rewrite Hob. simpl.
    intros [= <-]. right. by exists err.
Qed.

Lemma webhook_response_cases_witness :
  (∃ event, result (obtain_event accepting env_no_secret None (VArr [VStr "{}"])) =
              Normal event ∧
            dispatch_safe event = true ∧
            received =
              {| status := 200; body := Json (VObj {[ "received" := VBool true ]}) |}) ∨
  (∃ err, result (obtain_event accepting env_no_secret None (VArr [VStr "{}"])) =
            Throw err ∧
          received =
            {| status := 400; body := Text ("Webhook Error: " +:+ err_message err) |}).
Proof.
  apply (webhook_response_cases accepting env_no_secret None (VArr [VStr "{}"])).
  reflexivity.
Defined.

(** X11. A [payment_intent.payment_failed] event whose [data.object] is
    there is acknowledged with 200 after exactly one warning, "Payment
    failed:" with [data.object.last_payment_error.message], or with
    [undefined] when [last_payment_error] is absent or [null]. *)
Theorem payment_failed_is_logged
    (ext : Externals) (env : gmap string string) (sig : option string)
    (body : value) (t : list effect) (event pi : value) :
  obtain_event ext env sig body = Run t (Normal event) →
  own event "type" = VStr "payment_intent.payment_failed" →
  own (own event "data") "object" = pi →
  is_nullish pi = false →
  webhook_handler ext env sig body =
    Run (t ++ [SwitchOn (VStr "payment_intent.payment_failed");
               ConsoleWarn "Payment failed:"
                 (if is_nullish (own pi "last_payment_error") then VUndefined
                  else own (own pi "last_payment_error") "message")])
        (Normal {| status := 200; body := Json (VObj {[ "received" := VBool true ]}) |}).
Proof.
  intros Hob Hty Hpi Hn. rewrite (webhook_handler_obtained _ _ _ _ _ _ Hob).
  assert (is_nullish event = false) as Hev by (by destruct event).
  assert (is_nullish (own event "data") = false) as Hdata.
  { subst pi. by destruct (own event "data"). }
  assert (dispatch event =
    Run [SwitchOn (VStr "payment_intent.payment_failed");
         ConsoleWarn "Payment failed:"
           (if is_nullish (own pi "last_payment_error") then VUndefined
            else own (own pi "last_payment_error") "message")] (Normal ())) as ->.
  { unfold dispatch. rewrite (Get_own event "type"), Hty by done. simpl.
    rewrite (Get_own event "data") by done. simpl.
    rewrite (Get_own (own event "data") "object"), Hpi by done. simpl.
    rewrite (Get_own pi "last_payment_error") by done. simpl.
    destruct (is_nullish (own pi "last_payment_error")) eqn:Hl; simpl; [done|].
    by rewrite (Get_own _ "message" Hl). }
  done.
Qed.

Lemma payment_failed_is_logged_witness :
  webhook_handler verifying env_secret (Some "t=1,v1=5257a8") parsed_delivery =
    Run [ConstructEvent parsed_delivery (Some "t=1,v1=5257a8") "whsec_test";
         SwitchOn (VStr "payment_intent.payment_failed");
         ConsoleWarn "Payment failed:" (VStr "Your card has insufficient funds.")]
        (Normal {| status := 200; body := Json (VObj {[ "received" := VBool true ]}) |}).
Proof.
  exact (payment_failed_is_logged verifying env_secret (Some "t=1,v1=5257a8")
           parsed_delivery
           [ConstructEvent parsed_delivery (Some "t=1,v1=5257a8") "whsec_test"]
           failed_event
           (VObj {[ "last_payment_error" :=
                      VObj {[ "message" := VStr "Your card has insufficient funds." ]} ]})
           eq_refl eq_refl eq_refl eq_refl).
Defined.

(** X12. A [payment_intent.succeeded] event whose [data] is there is
    acknowledged with 200 and nothing else happens: nothing is logged and the
    processor is not called. *)
Theorem payment_succeeded_is_silent
    (ext : Externals) (env : gmap string string) (sig : option string)
    (body : value) (t : list effect) (event : value) :
  obtain_event ext env sig body = Run t (Normal event) →
  own event "type" = VStr "payment_intent.succeeded" →
  is_nullish (own event "data") = false →
  webhook_handler ext env sig body =
    Run (t ++ [SwitchOn (VStr "payment_intent.succeeded")])
        (Normal {| status := 200; body := Json (VObj {[ "received" := VBool true ]}) |}).
Proof.
  intros Hob Hty Hdata. rewrite (webhook_handler_obtained _ _ _ _ _ _ Hob).
  assert (is_nullish event = false) as Hev by (by destruct event).
  assert (dispatch event =
    Run [SwitchOn (VStr "payment_intent.succeeded")] (Normal ())) as ->.
  { unfold dispatch. rewrite (Get_own event "type"), Hty by done. simpl.
    rewrite (Get_own event "data") by done. simpl.
    by rewrite (Get_own (own event "data") "object") by done. }
  done.
Qed.

Lemma payment_succeeded_is_silent_witness :
  webhook_handler confirming env_secret (Some "t=1,v1=5257a8") parsed_delivery =
    Run [ConstructEvent parsed_delivery (Some "t=1,v1=5257a8") "whsec_test";
         SwitchOn (VStr "payment_intent.succeeded")]
        (Normal {| status := 200; body := Json (VObj {[ "received" := VBool true ]}) |}).
Proof.
  exact (payment_succeeded_is_silent confirming env_secret (Some "t=1,v1=5257a8")
           parsed_delivery
           [ConstructEvent parsed_delivery (Some "t=1,v1=5257a8") "whsec_test"]
           succeeded_event eq_refl eq_refl eq_refl).
Defined.

Ltac dispatch_trace :=
  simpl;
  repeat match goal with |- Forall _ _ => constructor end;
  first [by left; eexists | by right; eexists].

Lemma dispatch_effects (event : value) (e : effect) :
  e ∈ trace (dispatch event) →
  (∃ type, e = SwitchOn type) ∨ (∃ msg, e = ConsoleWarn "Payment failed:" msg).
Proof.
  assert (∀ l : list effect,
    Forall (λ e, (∃ type, e = SwitchOn type) ∨
                 (∃ msg, e = ConsoleWarn "Payment failed:" msg)) l →
    e ∈ l → (∃ type, e = SwitchOn type) ∨ (∃ msg, e = ConsoleWarn "Payment failed:" msg))
    as Hall by (intros l Hl; by apply (proj1 (Forall_forall _ l) Hl)).
  apply Hall. clear Hall. unfold dispatch.
  destruct event as [| | | | | |props]; try by dispatch_trace.
  simpl.
  destruct (default VUndefined (props !! "type")) as [| | | |ty| |];
    try by dispatch_trace.
  simpl. repeat case_bool_decide; try by dispatch_trace.
  - destruct (default VUndefined (props !! "data")); by dispatch_trace.
  - destruct (default VUndefined (props !! "data")) as [| | | | | |dprops];
      try by dispatch_trace.
    simpl.
    destruct (default VUndefined (dprops !! "object")) as [| | | | | |oprops];
      try by dispatch_trace.
    simpl.
    destruct (default VUndefined (oprops !! "last_payment_error"))
      as [| | | | | |lprops]; by dispatch_trace.
Qed.

Lemma obtain_event_fallback
    (ext : Externals) (env : gmap string string) (sig : option string) (body : value) :
  env !! "STRIPE_WEBHOOK_SECRET" = None ∨ env !! "STRIPE_WEBHOOK_SECRET" = Some "" →
  obtain_event ext env sig body = pure (JSON_parse ext body).
Proof. unfold obtain_event, endpointSecret. by intros [-> | ->]. Qed.

(** X13. When no signing secret is configured, the signature header plays no
    part: the outcome is the same whatever the header, and the processor's
    verification routine is never called. *)
Theorem fallback_ignores_signature
    (ext : Externals) (env : gmap string string) (sig sig' : option string)
    (body : value) :
  env !! "STRIPE_WEBHOOK_SECRET" = None ∨ env !! "STRIPE_WEBHOOK_SECRET" = Some "" →
  webhook_handler ext env sig body = webhook_handler ext env sig' body ∧
  ∀ payload header secret,
    ConstructEvent payload header secret ∉ trace (webhook_handler ext env sig body).
Proof.
  intros Hs. split.
  - unfold webhook_handler. by rewrite !obtain_event_fallback.
  - intros payload header secret Hin.
    pose proof (obtain_event_fallback ext env sig body Hs) as Hob.
    destruct (JSON_parse ext body) as [event|err] eqn:Hp.
    + rewrite (webhook_handler_obtained _ _ _ _ _ _ Hob) in Hin. simpl in Hin.
      apply dispatch_effects in Hin as [[? [=]]|[? [=]]].
    + unfold webhook_handler, try_catch in Hin. rewrite Hob in Hin.
      simpl in Hin. apply list_elem_of_singleton in Hin. discriminate.
Qed.

Lemma fallback_ignores_signature_witness :
  webhook_handler accepting env_no_secret None (VArr [VStr "{}"]) =
  webhook_handler accepting env_no_secret (Some "t=1,v1=forged") (VArr [VStr "{}"]).
Proof.
  apply (fallback_ignores_signature accepting env_no_secret). by left.
Defined.

(** X14. When a signing secret is configured, the processor's verification
    routine is the only source of events: the outcome depends on nothing
    outside [server.js] but what the routine answers for this body, header
    and secret; in particular [JSON.parse] is not consulted. *)
Theorem verification_is_the_only_source
    (ext ext' : Externals) (env : gmap string string) (sig : option string)
    (body : value) (secret : string) :
  env !! "STRIPE_WEBHOOK_SECRET" = Some secret →
  secret ≠ "" →
  webhooks_constructEvent ext body sig secret =
    webhooks_constructEvent ext' body sig secret →
  webhook_handler ext env sig body = webhook_handler ext' env sig body.
Proof.
  intros Hs Hne Heq. unfold webhook_handler, obtain_event, endpointSecret.
  rewrite Hs, bool_decide_eq_false_2 by done. by rewrite Heq.
Qed.

Lemma verification_is_the_only_source_witness :
  webhook_handler accepting env_secret None (VArr [VStr "null"]) =
  webhook_handler declining env_secret None (VArr [VStr "null"]).
Proof.
  apply (verification_is_the_only_source accepting declining env_secret None
           (VArr [VStr "null"]) "whsec_test").
  - reflexivity.
  - discriminate.
  - reflexivity.
Defined.

Lemma dispatch_throws_TypeError (event : value) (e : JsError) :
  result (dispatch event) = Throw e → err_name e = "TypeError".
Proof.
  unfold dispatch.
  destruct event as [| | | | | |props]; simpl; try by intros [= <-].
  destruct (default VUndefined (props !! "type")) as [| | | |ty| |];
    simpl; try done.
  repeat case_bool_decide; simpl; try done.
  - destruct (default VUndefined (props !! "data")); simpl; try done;
      by intros [= <-].
  - destruct (default VUndefined (props !! "data")) as [| | | | | |dprops];
      simpl; try done; try by intros [= <-].
    destruct (default VUndefined (dprops !! "object")) as [| | | | | |oprops];
      simpl; try done; try by intros [= <-].
    destruct (default VUndefined (oprops !! "last_payment_error"))
      as [| | | | | |lprops]; simpl; done.
Qed.

(** X20. The webhook handler lets an exception escape in one situation only:
    an event was obtained and the [switch] read a property of [undefined] or
    [null] in it.  The exception is then a [TypeError]; a failure to obtain
    the event is always caught and answered. *)
Theorem webhook_escaping_exception
    (ext : Externals) (env : gmap string string) (sig : option string)
    (body : value) (e : JsError) :
  result (webhook_handler ext env sig body) = Throw e →
  err_name e = "TypeError" ∧
  ∃ event, result (obtain_event ext env sig body) = Normal event ∧
           dispatch_safe event = false.
Proof.
  destruct (obtain_event ext env sig body) as [t [event|err]] eqn:Hob.
  - rewrite (webhook_handler_obtained _ _ _ _ _ _ Hob). simpl.
    destruct (result (dispatch event)) as [[]|e'] eqn:Hd; [done|].
    intros [= ->]. split; [by eapply dispatch_throws_TypeError|].
    exists event. split; [done|].
    destruct (dispatch_safe event) eqn:Hsafe; [|done].
    apply dispatch_result in Hsafe. congruence.
  - unfold webhook_handler, try_catch. rewrite Hob. simpl. done.
Qed.

Lemma webhook_escaping_exception_witness :
  err_name (TypeError "Cannot read properties of null (reading 'type')") = "TypeError" ∧
  ∃ event, result (obtain_event accepting env_no_secret None (VArr [VStr "null"])) =
             Normal event ∧
           dispatch_safe event = false.
Proof.
  apply (webhook_escaping_exception accepting env_no_secret None (VArr [VStr "null"])).
  reflexivity.
Defined.

(** ** Further properties of the CORS gate *)

Lemma split_comma_not_nil (s : string) : split_comma s ≠ [].
Proof.
  induction s as [|c s IH]; simpl; [done|].
  case_bool_decide; [done|]. by destruct (split_comma s).
Qed.

Lemma split_comma_prefix (p r : string) :
  ","%char ∉ list_ascii_of_string p →
  split_comma (p +:+ "," +:+ r) = p :: split_comma r.
Proof.
  induction p as [|c p IH]; simpl; intros Hc; [done|].
  apply not_elem_of_cons in Hc as [Hc Hp].
  rewrite bool_decide_eq_false_2 by done. by rewrite IH.
Qed.

Lemma split_comma_comma_free (p : string) :
  ","%char ∉ list_ascii_of_string p → split_comma p = [p].
Proof.
  induction p as [|c p IH]; simpl; intros Hc; [done|].
  apply not_elem_of_cons in Hc as [Hc Hp].
  rewrite bool_decide_eq_false_2 by done. by rewrite IH.
Qed.

Lemma split_comma_join (l : list string) :
  l ≠ [] →
  Forall (λ o, ","%char ∉ list_ascii_of_string o) l →
  split_comma (join_comma l) = l.
Proof.
  induction l as [|p [|q l] IH]; intros Hne Hall; [done| |].
  - simpl. apply split_comma_comma_free. by inversion Hall.
  - inversion Hall as [|? ? Hp Hrest]; subst.
    change (join_comma (p :: q :: l)) with (p +:+ "," +:+ join_comma (q :: l)).
    rewrite split_comma_prefix by done. f_equal. by apply IH.
Qed.

Lemma split_comma_elements (s x : string) :
  x ∈ split_comma s → ","%char ∉ list_ascii_of_string x.
Proof.
  revert x. induction s as [|c s IH]; simpl; intros x.
  - intros ->%list_elem_of_singleton. apply not_elem_of_nil.
  - case_bool_decide as Hc.
    + intros [->|Hx]%elem_of_cons; [apply not_elem_of_nil|by apply IH].
    + destruct (split_comma s) as [|h t] eqn:Hs; [by destruct (split_comma_not_nil s)|].
      intros [->|Hx]%elem_of_cons.
      * simpl. apply not_elem_of_cons. split; [congruence|].
        apply IH, elem_of_cons. by left.
      * apply IH, elem_of_cons. by right.
Qed.

(** X15. The allow-list is read back as it was written: when
    [ALLOWED_ORIGINS] is the comma-joined list of origins that are not empty
    and hold no comma, [allowed] is exactly that list, in order. *)
Theorem allowed_round_trip (env : gmap string string) (origins : list string) :
  env !! "ALLOWED_ORIGINS" = Some (join_comma origins) →
  Forall (λ o, o ≠ "" ∧ ","%char ∉ list_ascii_of_string o) origins →
  allowed env = origins.
Proof.
  intros Henv Hall. unfold allowed. rewrite Henv. simpl.
  destruct origins as [|p l]; [done|].
  rewrite split_comma_join; [|done|by eapply Forall_impl; [done|intros ? []]].
  clear Henv. induction Hall as [|o os [Ho _] _ IH]; [done|].
  by rewrite filter_cons_True, IH.
Qed.

Lemma allowed_round_trip_witness :
  allowed env_origins = ["https://shop.example"; "https://admin.shop.example"].
Proof.
  apply allowed_round_trip; [reflexivity|].
  repeat constructor; try discriminate;
    apply (bool_decide_unpack _); vm_compute; exact I.
Defined.

(** X16. Every origin of the allow-list is a non-empty piece of
    [ALLOWED_ORIGINS] that holds no comma: empty pieces are dropped, and no
    origin with a comma in it can ever be allowed by name. *)
Theorem allowed_elements (env : gmap string string) (o : string) :
  o ∈ allowed env → o ≠ "" ∧ ","%char ∉ list_ascii_of_string o.
Proof.
  unfold allowed. intros [Ho Hin]%list_elem_of_filter.
  split; [done|]. by eapply split_comma_elements.
Qed.

Lemma allowed_elements_witness :
  "https://shop.example" ≠ "" ∧
  ","%char ∉ list_ascii_of_string "https://shop.example".
Proof.
  apply (allowed_elements env_origins).
  apply (bool_decide_unpack _). vm_compute. exact I.
Defined.

(** X17. An empty allow-list allows everything: when [ALLOWED_ORIGINS] is
    unset or empty, the allow-list is empty and every request, whatever its
    origin, goes on to the routes. *)
Theorem empty_allow_list_permits_all (ext : Externals) (env : gmap string string) :
  env !! "ALLOWED_ORIGINS" = None ∨ env !! "ALLOWED_ORIGINS" = Some "" →
  allowed env = [] ∧ ∀ req, app ext env req = routes ext env req.
Proof.
  intros Henv.
  assert (allowed env = []) as Hnil by (unfold allowed; by destruct Henv as [-> | ->]).
  split; [done|]. intros req. unfold app, cors_origin. rewrite Hnil. simpl.
  by rewrite orb_true_r.
Qed.

Lemma empty_allow_list_permits_all_witness :
  app accepting env_no_secret req_foreign = routes accepting env_no_secret req_foreign.
Proof.
  apply (empty_allow_list_permits_all accepting env_no_secret). by left.
Defined.

(** ** The application as a whole *)





